(** * polyfactory.fields: the deferred-value field descriptors

    A shallow embedding of [src/polyfactory/fields.py] (the classes [Use],
    [PostGenerated] and [Fixture]) together with the properties its
    specification states about them.

    Python values are a small closed universe; descriptor instances live in
    an object store and are passed around by reference; wrapped callables
    and factories are external code whose behaviour is a parameter.  Every
    call this module makes into external code is recorded in a call log, so
    that "invokes [f] once" and "does not call [build]" are statements about
    the program and not about its result only.

    Two models follow. In the first, external code is handed values and
    acts on a world of its own: it serves for what is called, with which
    arguments, how often and with what outcome. In the second, [ByRef],
    external code is handed references into the one store that also holds
    the instances and the registry: it serves for what resolution writes
    and what a callee can change under it. *)

From stdpp Require Import gmap strings list list_numbers.

Open Scope Z_scope.
Open Scope string_scope.
Open Scope list_scope.

(** ** Python values *)

#[local] Set Warnings "-register-all".

Inductive PyVal : Type :=
| PyNone
| PyBool (b : bool)
| PyInt (z : Z)
| PyStr (s : string)
| PyList (xs : list PyVal)
| PyDict (kv : list (string * PyVal))
| PyObj (id : nat).

(** [**kwargs]: a dict with string keys, kept in insertion order. *)
Abbreviation Kwargs := (list (string * PyVal)).

(** Python's truth test, as applied by [if x:]. An instance without
    [__bool__] and [__len__] is true. *)
Definition truthy (v : PyVal) : bool :=
  match v with
  | PyNone => false
  | PyBool b => b
  | PyInt z => negb (Z.eqb z 0)
  | PyStr s => negb (String.eqb s "")
  | PyList xs => match xs with [] => false | _ => true end
  | PyDict kv => match kv with [] => false | _ => true end
  | PyObj _ => true
  end.

(** ** Exceptions and outcomes *)

Record PyExc : Type := { exc_class : string; exc_msg : string }.

(** [polyfactory.exceptions.ParameterError(msg)]. *)
Definition ParameterError (msg : string) : PyExc :=
  {| exc_class := "ParameterError"; exc_msg := msg |}.

Definition AttributeError (msg : string) : PyExc :=
  {| exc_class := "AttributeError"; exc_msg := msg |}.

Inductive Outcome (A : Type) : Type :=
| Return (a : A)
| Raise (e : PyExc).
Arguments Return {A} a.
Arguments Raise {A} e.

(** [typing.cast] does nothing at run time. *)
Definition cast {A : Type} (ty : string) (x : A) : A := x.

(** ** External code, objects and program state *)

Section Model.

(** Whatever the external code (wrapped callables, factories) can read
    and write. In this model it holds no reference to the descriptor
    instances and is handed values; [ByRef] below lifts both limits. *)
Variable World : Type.

(** A Python callable: its identity (what a dict keyed by it hashes and
    compares) and what calling it does. A wrong number of arguments is
    one of the ways the call can raise. *)
Record Callable : Type := {
  callable_id : nat;
  callable_run : list PyVal -> Kwargs -> World -> Outcome PyVal * World
}.

(** [class WrappedCallable(TypedDict): value: Callable] *)
Record WrappedCallable : Type := { value : Callable }.

(** Modelled from the spec: the factory class held by the registry
    ([polyfactory.pytest_plugin] is not part of the sources). It exposes
    [build] (keyword arguments to an object) and [batch] (a size and
    keyword arguments to a sequence of objects); both are external code.
    A factory is a class object, and a class object is true under
    Python's truth test. *)
Record Factory : Type := {
  factory_id : nat;
  factory_build : Kwargs -> World -> Outcome PyVal * World;
  factory_batch : PyVal -> Kwargs -> World -> Outcome PyVal * World
}.

(** Instances of the three classes, by their [__slots__]. A method only
    ever runs on an instance of its own class; the methods below answer
    any other reference with an [AttributeError] to stay total. *)
Inductive Obj : Type :=
| UseObj (fn : WrappedCallable) (kwargs : Kwargs) (args : list PyVal)
| PostGeneratedObj (fn : WrappedCallable) (kwargs : Kwargs) (args : list PyVal)
| FixtureObj (fixture : WrappedCallable) (size : PyVal) (kwargs : Kwargs).

(** One call from this module into external code. *)
Inductive Event : Type :=
| EvCall (f : nat) (args : list PyVal) (kw : Kwargs)
| EvBuild (factory : nat) (kw : Kwargs)
| EvBatch (factory : nat) (size : PyVal) (kw : Kwargs).

(** Modelled from the spec: [factory_class_map] is the class attribute
    [FactoryFixture.factory_class_map], the process-wide registry from a
    builder's identity to its factory. *)
Record State : Type := {
  world : World;
  factory_class_map : gmap nat Factory;
  heap : gmap nat Obj;
  calls : list Event
}.

(** ** The monad: state and exceptions *)

Definition M (A : Type) : Type := State -> Outcome A * State.

Definition ret {A} (a : A) : M A := fun s => (Return a, s).

Definition raise {A} (e : PyExc) : M A := fun s => (Raise e, s).

Definition bind {A B} (m : M A) (k : A -> M B) : M B :=
  fun s =>
    match m s with
    | (Return a, s') => k a s'
    | (Raise e, s') => (Raise e, s')
    end.

(** Leaving the external world [w'] behind and logging the call [ev]. The
    callee of this model has no hold on the instances and the registry. *)
Definition after_call (s : State) (w' : World) (ev : Event) : State :=
  {| world := w';
     factory_class_map := factory_class_map s;
     heap := heap s;
     calls := calls s ++ [ev] |}.

(** Calling [f] with the positional arguments [args] and the keyword
    arguments [kw] unpacked. *)
Definition call (f : Callable) (args : list PyVal) (kw : Kwargs) : M PyVal :=
  fun s =>
    let '(r, w') := callable_run f args kw (world s) in
    (r, after_call s w' (EvCall (callable_id f) args kw)).

(** [factory.build] with the keyword arguments [kw] unpacked. *)
Definition build (factory : Factory) (kw : Kwargs) : M PyVal :=
  fun s =>
    let '(r, w') := factory_build factory kw (world s) in
    (r, after_call s w' (EvBuild (factory_id factory) kw)).

(** [factory.batch] with [size] and the keyword arguments [kw] unpacked. *)
Definition batch (factory : Factory) (size : PyVal) (kw : Kwargs) : M PyVal :=
  fun s =>
    let '(r, w') := factory_batch factory size kw (world s) in
    (r, after_call s w' (EvBatch (factory_id factory) size kw)).

(** [FactoryFixture.factory_class_map.get(key)]: [None] when absent. *)
Definition factory_class_map_get (key : Callable) : M (option Factory) :=
  fun s => (Return (factory_class_map s !! callable_id key), s).

(** Reading the instance behind the reference [self]. *)
Definition deref (self : nat) : M Obj :=
  fun s =>
    match heap s !! self with
    | Some o => (Return o, s)
    | None => (Raise (AttributeError "no such instance"), s)
    end.

(** Writing the slots of the instance behind [self]. *)
Definition store (self : nat) (o : Obj) : M unit :=
  fun s =>
    (Return tt,
     {| world := world s;
        factory_class_map := factory_class_map s;
        heap := <[self := o]> (heap s);
        calls := calls s |}).

(** The address [object.__new__] hands out: one past the largest in use. *)
Definition fresh (h : gmap nat Obj) : nat :=
  S (max_list (elements (dom h))).

Definition new : M nat := fun s => (Return (fresh (heap s)), s).

End Model.

Arguments callable_id {World} _.
Arguments callable_run {World} _ _ _ _.
Arguments value {World} _.
Arguments factory_id {World} _.
Arguments factory_build {World} _ _ _.
Arguments factory_batch {World} _ _ _ _.
Arguments UseObj {World} fn kwargs args.
Arguments PostGeneratedObj {World} fn kwargs args.
Arguments FixtureObj {World} fixture size kwargs.
Arguments world {World} _.
Arguments factory_class_map {World} _.
Arguments heap {World} _.
Arguments calls {World} _.
Arguments ret {World A} a _.
Arguments raise {World A} e _.
Arguments bind {World A B} m k _.
Arguments after_call {World} s w' ev.
Arguments call {World} f args kw _.
Arguments build {World} factory kw _.
Arguments batch {World} factory size kw _.
Arguments factory_class_map_get {World} key _.
Arguments deref {World} self _.
Arguments store {World} self o _.
Arguments fresh {World} h.
Arguments new {World} _.

Declare Scope py_scope.
Delimit Scope py_scope with py.
Notation "x <- m ;; k" := (bind m (fun x => k))
  (at level 100, m at next level, right associativity) : py_scope.
Notation "m ;;; k" := (bind m (fun _ => k))
  (at level 100, right associativity) : py_scope.
Open Scope py_scope.

(** ** class Use *)

Module Use.
Section Use.
Context {World : Type}.

(** [def __init__(self, fn, *args, **kwargs)] *)
Definition __init__ (self : nat) (fn : Callable World)
    (args : list PyVal) (kwargs : Kwargs) : M World unit :=
  store self (UseObj {| value := fn |} kwargs args).

(** [Use(fn, *args, **kwargs)]: a new instance, then [__init__]. *)
Definition construct (fn : Callable World)
    (args : list PyVal) (kwargs : Kwargs) : M World nat :=
  self <- new;;
  __init__ self fn args kwargs;;;
  ret self.

(** [def to_value(self)] *)
Definition to_value (self : nat) : M World PyVal :=
  o <- deref self;;
  match o with
  | UseObj fn kwargs args => cast "T" (call (value fn) args kwargs)
  | _ => raise (AttributeError "not a Use instance")
  end.

End Use.
End Use.

(** ** class PostGenerated *)

Module PostGenerated.
Section PostGenerated.
Context {World : Type}.

(** [def __init__(self, fn, *args, **kwargs)] *)
Definition __init__ (self : nat) (fn : Callable World)
    (args : list PyVal) (kwargs : Kwargs) : M World unit :=
  store self (PostGeneratedObj {| value := fn |} kwargs args).

(** [PostGenerated(fn, *args, **kwargs)]: a new instance, then
    [__init__]. *)
Definition construct (fn : Callable World)
    (args : list PyVal) (kwargs : Kwargs) : M World nat :=
  self <- new;;
  __init__ self fn args kwargs;;;
  ret self.

(** [def to_value(self, name, values)]: the field name and the generated
    values go first, then the stored arguments. *)
Definition to_value (self : nat) (name : string) (values : Kwargs)
    : M World PyVal :=
  o <- deref self;;
  match o with
  | PostGeneratedObj fn kwargs args =>
      call (value fn) (PyStr name :: PyDict values :: args) kwargs
  | _ => raise (AttributeError "not a PostGenerated instance")
  end.

End PostGenerated.
End PostGenerated.

(** ** class Fixture *)

Module Fixture.
Section Fixture.
Context {World : Type}.

Definition not_registered : string :=
  "fixture has not been registered using the register_factory decorator".

(** [def __init__(self, fixture, size=None, **kwargs)] *)
Definition __init__ (self : nat) (fixture : Callable World)
    (size : PyVal) (kwargs : Kwargs) : M World unit :=
  store self (FixtureObj {| value := fixture |} size kwargs).

(** [Fixture(fixture, size, **kwargs)]: a new instance, then [__init__].
    A caller that leaves [size] out passes [PyNone]. *)
Definition construct (fixture : Callable World)
    (size : PyVal) (kwargs : Kwargs) : M World nat :=
  self <- new;;
  __init__ self fixture size kwargs;;;
  ret self.

(** [def to_value(self)]. The outer [if] binds [factory] to what [get]
    returned and tests it: [None] is false and a factory class is true.
    The inner [if self.size:] is Python's truth test on the stored size. *)
Definition to_value (self : nat) : M World PyVal :=
  o <- deref self;;
  match o with
  | FixtureObj fixture size kwargs =>
      found <- factory_class_map_get (value fixture);;
      match found with
      | Some factory =>
          if truthy size then batch factory size kwargs
          else build factory kwargs
      | None => raise (ParameterError not_registered)
      end
  | _ => raise (AttributeError "not a Fixture instance")
  end.

End Fixture.
End Fixture.


(** An exception that this module raised itself: the run ended in [e] and
    made no call into external code. *)
Definition raised_here {World A} (s : State World)
    (r : Outcome A * State World) (e : PyExc) : Prop :=
  fst r = Raise e /\ calls (snd r) = calls s.

(** Whether a logged call went to a factory's [build] or [batch], as
    opposed to a call of a plain callable. *)
Definition is_factory_call (ev : Event) : bool :=
  match ev with
  | EvCall _ _ _ => false
  | EvBuild _ _ | EvBatch _ _ _ => true
  end.

(** A run that ended in an exception of the class [cls], wherever the
    exception came from. *)
Definition raises {World A} (cls : string)
    (r : Outcome A * State World) : Prop :=
  exists e, fst r = Raise e /\ exc_class e = cls.

(** ** Concrete programs

    A world that counts, and a few callables and factories over it. *)

Module Samples.

Definition TypeError : PyExc :=
  {| exc_class := "TypeError"; exc_msg := "bad arguments" |}.

Definition ValueError : PyExc :=
  {| exc_class := "ValueError"; exc_msg := "boom" |}.

(** [lambda a, b: a + b] *)
Definition add : Callable Z :=
  {| callable_id := 10;
     callable_run := fun args kw w =>
       match args, kw with
       | [PyInt a], [("b", PyInt b)] => (Return (PyInt (a + b)), w)
       | [PyInt a; PyInt b], [] => (Return (PyInt (a + b)), w)
       | _, _ => (Raise TypeError, w)
       end |}.

(** A callable with an effect: it returns how often it has run. *)
Definition tick : Callable Z :=
  {| callable_id := 11;
     callable_run := fun _ _ w => (Return (PyInt w), w + 1) |}.

(** [lambda name, vals: vals["x"] * 2] *)
Definition double_x : Callable Z :=
  {| callable_id := 12;
     callable_run := fun args kw w =>
       match args, kw with
       | [PyStr _; PyDict [("x", PyInt x)]], [] => (Return (PyInt (x * 2)), w)
       | _, _ => (Raise TypeError, w)
       end |}.

(** A callable that always raises, after touching the world. *)
Definition boom : Callable Z :=
  {| callable_id := 13;
     callable_run := fun _ _ w => (Raise ValueError, w + 1) |}.

(** A registered fixture function and one that was never registered. *)
Definition person_fixture : Callable Z :=
  {| callable_id := 20;
     callable_run := fun _ _ w => (Return PyNone, w) |}.

Definition stray_fixture : Callable Z :=
  {| callable_id := 21;
     callable_run := fun _ _ w => (Return PyNone, w) |}.

Definition failing_fixture : Callable Z :=
  {| callable_id := 22;
     callable_run := fun _ _ w => (Return PyNone, w) |}.

(** [batch] of the sample factory: [size] new objects, numbered from the
    world's counter; a size that is not an integer is its error. *)
Definition person_factory : Factory Z :=
  {| factory_id := 30;
     factory_build := fun kw w => (Return (PyObj (Z.to_nat w)), w + 1);
     factory_batch := fun size kw w =>
       match size with
       | PyInt n =>
           (Return (PyList (map (fun i => PyObj (Z.to_nat w + i))
                                (seq 0 (Z.to_nat n)))),
            w + Z.of_nat (Z.to_nat n))
       | _ => (Raise TypeError, w)
       end |}.

(** A factory whose [build] and [batch] raise [ParameterError]. *)
Definition failing_factory : Factory Z :=
  {| factory_id := 31;
     factory_build := fun kw w => (Raise (ParameterError "unsupported type"), w + 1);
     factory_batch := fun size kw w => (Raise (ParameterError "unsupported type"), w + 1) |}.

Definition registry : gmap nat (Factory Z) :=
  <[22%nat := failing_factory]> (<[20%nat := person_factory]> ∅).

Definition s0 : State Z :=
  {| world := 0; factory_class_map := registry; heap := ∅; calls := [] |}.

(** The state after a class body declared twelve descriptor fields. *)
Definition declare : M Z unit :=
  Use.construct add [PyInt 2] [("b", PyInt 3)];;;
  Use.construct tick [] [];;;
  PostGenerated.construct double_x [] [];;;
  Fixture.construct person_fixture PyNone [("name", PyStr "a")];;;
  Fixture.construct person_fixture (PyInt 5) [("name", PyStr "a")];;;
  Fixture.construct stray_fixture (PyInt 5) [];;;
  Fixture.construct person_fixture (PyInt 0) [("name", PyStr "a")];;;
  Use.construct boom [PyInt 1] [];;;
  PostGenerated.construct boom [] [];;;
  Fixture.construct failing_fixture PyNone [];;;
  Fixture.construct failing_fixture (PyInt (-2)) [];;;
  Fixture.construct person_fixture (PyStr "many") [];;;
  ret tt.

Definition s1 : State Z := snd (declare s0).

End Samples.

(** * The same methods, with everything shared by reference

    The model above hands values to external code. Python hands out
    references: a list stored among the arguments of a descriptor is the
    very list the callee receives, a callee that holds the descriptor can
    assign its slots, and a factory reaches the registry. Here the
    instances and the list objects share one store with the registry, and
    external code receives all of it and gives back what it made of it. A
    callable is known by its identity; what calling it does is given by
    the code table of the program. *)

Module ByRef.

Section Store.
Variable World : Type.

(** [class WrappedCallable(TypedDict): value: Callable], the callable by
    its identity. *)
Record WrappedCallable : Type := { value : nat }.

(** What a reference [PyObj r] leads to: a list object, or an instance of
    one of the three classes, by its [__slots__]. *)
Inductive Cell : Type :=
| ListCell (items : list PyVal)
| UseCell (fn : WrappedCallable) (kwargs : Kwargs) (args : list PyVal)
| PostGeneratedCell (fn : WrappedCallable) (kwargs : Kwargs) (args : list PyVal)
| FixtureCell (fixture : WrappedCallable) (size : PyVal) (kwargs : Kwargs).

(** Everything external code can reach. Modelled from the spec:
    [factory_class_map] is [FactoryFixture.factory_class_map], here from
    the identity of a fixture to the identity of its factory class. *)
Record Store : Type := {
  world : World;
  factory_class_map : gmap nat nat;
  cells : gmap nat Cell
}.

(** The external code of the program: what calling the callable [f] does,
    and what [build] and [batch] of the factory class [factory] do. Each
    gets the whole store and returns the store it leaves. *)
Record Code : Type := {
  run_callable : nat -> list PyVal -> Kwargs -> Store -> Outcome PyVal * Store;
  run_build : nat -> Kwargs -> Store -> Outcome PyVal * Store;
  run_batch : nat -> PyVal -> Kwargs -> Store -> Outcome PyVal * Store
}.

(** The store, and the calls this module made into external code. *)
Record Run : Type := { mem : Store; made : list Event }.

Variable code : Code.

(** Calling [f] with [args] and [kw] unpacked: the callee gets the
    references the arguments hold. *)
Definition call (f : nat) (args : list PyVal) (kw : Kwargs) (s : Run)
    : Outcome PyVal * Run :=
  let '(r, m) := run_callable code f args kw (mem s) in
  (r, {| mem := m; made := made s ++ [EvCall f args kw] |}).

(** [factory.build] with the keyword arguments [kw] unpacked. *)
Definition build (factory : nat) (kw : Kwargs) (s : Run)
    : Outcome PyVal * Run :=
  let '(r, m) := run_build code factory kw (mem s) in
  (r, {| mem := m; made := made s ++ [EvBuild factory kw] |}).

(** [factory.batch] with [size] and the keyword arguments [kw] unpacked. *)
Definition batch (factory : nat) (size : PyVal) (kw : Kwargs) (s : Run)
    : Outcome PyVal * Run :=
  let '(r, m) := run_batch code factory size kw (mem s) in
  (r, {| mem := m; made := made s ++ [EvBatch factory size kw] |}).

(** Python's truth test, where a reference to a list is as true as the
    list is now. *)
Definition truthy_at (m : Store) (v : PyVal) : bool :=
  match v with
  | PyObj r =>
      match cells m !! r with
      | Some (ListCell []) => false
      | _ => true
      end
  | _ => truthy v
  end.

(** Assigning the slots of the instance behind [self]. *)
Definition assign (self : nat) (c : Cell) (s : Run) : Run :=
  {| mem := {| world := world (mem s);
               factory_class_map := factory_class_map (mem s);
               cells := <[self := c]> (cells (mem s)) |};
     made := made s |}.

(** What a reader of the slots sees in [v]: a list for a reference to a
    list object, [v] itself otherwise. *)
Definition shown (m : Store) (v : PyVal) : PyVal :=
  match v with
  | PyObj r =>
      match cells m !! r with
      | Some (ListCell items) => PyList items
      | _ => v
      end
  | _ => v
  end.

(** The stored fields of the instance behind [self] as a reader sees
    them: the callable, the positional arguments, the named arguments and,
    for a [Fixture], the size. *)
Definition stored_fields (m : Store) (self : nat)
    : option (nat * list PyVal * Kwargs * PyVal) :=
  let show_kw (kw : Kwargs) := map (fun kv => (fst kv, shown m (snd kv))) kw in
  match cells m !! self with
  | Some (UseCell fn kwargs args) | Some (PostGeneratedCell fn kwargs args) =>
      Some (value fn, map (shown m) args, show_kw kwargs, PyNone)
  | Some (FixtureCell fixture size kwargs) =>
      Some (value fixture, [], show_kw kwargs, shown m size)
  | _ => None
  end.

End Store.

Arguments world {World} _.
Arguments factory_class_map {World} _.
Arguments cells {World} _.
Arguments run_callable {World} _ _ _ _ _.
Arguments run_build {World} _ _ _ _.
Arguments run_batch {World} _ _ _ _ _.
Arguments mem {World} _.
Arguments made {World} _.
Arguments call {World} code f args kw s.
Arguments build {World} code factory kw s.
Arguments batch {World} code factory size kw s.
Arguments truthy_at {World} m v.
Arguments assign {World} self c s.
Arguments shown {World} m v.
Arguments stored_fields {World} m self.

Module Use.

(** [def __init__(self, fn, *args, **kwargs)] *)
Definition __init__ {World} (self : nat) (fn : nat)
    (args : list PyVal) (kwargs : Kwargs) (s : Run World) : Run World :=
  assign self (UseCell {| value := fn |} kwargs args) s.

(** [def to_value(self)] *)
Definition to_value {World} (code : Code World) (self : nat) (s : Run World)
    : Outcome PyVal * Run World :=
  match cells (mem s) !! self with
  | Some (UseCell fn kwargs args) =>
      cast "T" (call code (value fn) args kwargs s)
  | _ => (Raise (AttributeError "not a Use instance"), s)
  end.

End Use.

Module PostGenerated.

(** [def __init__(self, fn, *args, **kwargs)] *)
Definition __init__ {World} (self : nat) (fn : nat)
    (args : list PyVal) (kwargs : Kwargs) (s : Run World) : Run World :=
  assign self (PostGeneratedCell {| value := fn |} kwargs args) s.

(** [def to_value(self, name, values)]; [values] is the caller's dict,
    handed on as it came. *)
Definition to_value {World} (code : Code World) (self : nat)
    (name : string) (values : PyVal) (s : Run World)
    : Outcome PyVal * Run World :=
  match cells (mem s) !! self with
  | Some (PostGeneratedCell fn kwargs args) =>
      call code (value fn) (PyStr name :: values :: args) kwargs s
  | _ => (Raise (AttributeError "not a PostGenerated instance"), s)
  end.

End PostGenerated.

Module Fixture.

(** [def __init__(self, fixture, size=None, **kwargs)] *)
Definition __init__ {World} (self : nat) (fixture : nat)
    (size : PyVal) (kwargs : Kwargs) (s : Run World) : Run World :=
  assign self (FixtureCell {| value := fixture |} size kwargs) s.

(** [def to_value(self)] *)
Definition to_value {World} (code : Code World) (self : nat) (s : Run World)
    : Outcome PyVal * Run World :=
  match cells (mem s) !! self with
  | Some (FixtureCell fixture size kwargs) =>
      match factory_class_map (mem s) !! value fixture with
      | Some factory =>
          if truthy_at (mem s) size then batch code factory size kwargs s
          else build code factory kwargs s
      | None =>
          (Raise (ParameterError
             "fixture has not been registered using the register_factory decorator"),
           s)
      end
  | _ => (Raise (AttributeError "not a Fixture instance"), s)
  end.

End Fixture.

(** ** A program whose callables write what they were handed *)

Module Samples.

(** [lambda items: items.append(1)] *)
Definition append_one : nat := 50.

(** A callable that holds the descriptor it was wrapped in, at address 2,
    and assigns its [args], whatever it is called with:
    [lambda *a: setattr(d, "args", ())]. *)
Definition rebind_args : nat := 51.

(** A fixture function, and its factory class, whose [build] drops the
    registration of the fixture. *)
Definition once_fixture : nat := 60.
Definition once_factory : nat := 70.

Definition set_cell (m : Store unit) (r : nat) (c : Cell) : Store unit :=
  {| world := world m;
     factory_class_map := factory_class_map m;
     cells := <[r := c]> (cells m) |}.

Definition code : Code unit :=
  {| run_callable := fun f args kw m =>
       if Nat.eqb f append_one then
         match args with
         | [PyObj r] =>
             match cells m !! r with
             | Some (ListCell items) =>
                 (Return PyNone, set_cell m r (ListCell (items ++ [PyInt 1])))
             | _ => (Raise (AttributeError "append"), m)
             end
         | _ => (Raise (AttributeError "append"), m)
         end
       else if Nat.eqb f rebind_args then
         match cells m !! 2%nat with
         | Some (UseCell fn kwargs _) =>
             (Return PyNone, set_cell m 2 (UseCell fn kwargs []))
         | _ => (Return PyNone, m)
         end
       else (Return PyNone, m);
     run_build := fun factory kw m =>
       (Return (PyObj 9),
        {| world := world m;
           factory_class_map := delete once_fixture (factory_class_map m);
           cells := cells m |});
     run_batch := fun factory size kw m => (Return (PyList []), m) |}.

(** External code that reads and writes no more than its own world: the
    callables return how many arguments they got, the factories build
    nothing. *)
Definition readers : Code unit :=
  {| run_callable := fun f args kw m =>
       (Return (PyInt (Z.of_nat (length args))), m);
     run_build := fun factory kw m => (Return PyNone, m);
     run_batch := fun factory size kw m => (Return (PyList []), m) |}.

(** One empty list at address 7; [Use(append_one, the_list)] at address 1,
    [Use(rebind_args, 3)] at address 2 and [Fixture(once_fixture)] at
    address 3. *)
Definition r0 : Run unit :=
  Fixture.__init__ 3 once_fixture PyNone []
    (Use.__init__ 2 rebind_args [PyInt 3] []
       (Use.__init__ 1 append_one [PyObj 7] []
          {| mem := {| world := tt;
                       factory_class_map := {[ once_fixture := once_factory ]};
                       cells := {[ 7%nat := ListCell [] ]} |};
             made := [] |})).

End Samples.

End ByRef.

(** * Properties *)

Section Properties.
Context {World : Type}.
Implicit Types (s : State World) (self : nat) (e : PyExc).
Implicit Types (args : list PyVal) (kwargs values : Kwargs).

(** ** The object store *)

Lemma fresh_unused (h : gmap nat (Obj World)) : h !! fresh h = None.
Proof.
  apply not_elem_of_dom. intros Hin.
  apply elem_of_elements, max_list_elem_of_le in Hin.
  unfold fresh in Hin. lia.
Qed.

Lemma deref_found s self o :
  heap s !! self = Some o -> deref self s = (Return o, s).
Proof. intros H. unfold deref. by rewrite H. Qed.

Lemma after_call_heap s w ev : heap (after_call s w ev) = heap s.
Proof. reflexivity. Qed.

Lemma after_call_calls s w ev : calls (after_call s w ev) = calls s ++ [ev].
Proof. reflexivity. Qed.

(** A call into external code pairs the callee's outcome with the state
    that holds the callee's world and one more log entry. *)
Lemma call_run (f : Callable World) args kwargs s :
  call f args kwargs s =
    (fst (callable_run f args kwargs (world s)),
     after_call s (snd (callable_run f args kwargs (world s)))
                (EvCall (callable_id f) args kwargs)).
Proof. unfold call. by destruct (callable_run f args kwargs (world s)). Qed.

Lemma build_run (factory : Factory World) kwargs s :
  build factory kwargs s =
    (fst (factory_build factory kwargs (world s)),
     after_call s (snd (factory_build factory kwargs (world s)))
                (EvBuild (factory_id factory) kwargs)).
Proof. unfold build. by destruct (factory_build factory kwargs (world s)). Qed.

Lemma batch_run (factory : Factory World) (size : PyVal) kwargs s :
  batch factory size kwargs s =
    (fst (factory_batch factory size kwargs (world s)),
     after_call s (snd (factory_batch factory size kwargs (world s)))
                (EvBatch (factory_id factory) size kwargs)).
Proof. unfold batch. by destruct (factory_batch factory size kwargs (world s)). Qed.

(** The log only grows by a call, so a run that made one did not leave
    the log as it was. *)
Lemma log_grew {A} (l : list A) (x : A) : l ++ [x] <> l.
Proof.
  intros H. apply (f_equal length) in H.
  rewrite length_app in H. simpl in H. lia.
Qed.

(** ** Each [to_value], unfolded at an instance of its class *)

Lemma use_to_value_at s self fn kwargs args :
  heap s !! self = Some (UseObj fn kwargs args) ->
  Use.to_value self s = call (value fn) args kwargs s.
Proof.
  intros H. unfold Use.to_value, bind, cast. by rewrite (deref_found _ _ _ H).
Qed.

Lemma post_generated_to_value_at s self fn kwargs args name values :
  heap s !! self = Some (PostGeneratedObj fn kwargs args) ->
  PostGenerated.to_value self name values s =
    call (value fn) (PyStr name :: PyDict values :: args) kwargs s.
Proof.
  intros H. unfold PostGenerated.to_value, bind.
  by rewrite (deref_found _ _ _ H).
Qed.

Lemma fixture_to_value_at s self fixture (size : PyVal) kwargs :
  heap s !! self = Some (FixtureObj fixture size kwargs) ->
  Fixture.to_value self s =
    match factory_class_map s !! callable_id (value fixture) with
    | Some factory =>
        if truthy size then batch factory size kwargs s
        else build factory kwargs s
    | None => (Raise (ParameterError Fixture.not_registered), s)
    end.
Proof.
  intros H. unfold Fixture.to_value, bind.
  rewrite (deref_found _ _ _ H). unfold factory_class_map_get.
  destruct (factory_class_map s !! callable_id (value fixture)); [|done].
  by destruct (truthy size).
Qed.

(** Construction, for any of the three classes: a new address, one write
    to it, nothing else. *)
Lemma construct_run s (o : Obj World) :
  (self <- new;; store self o;;; ret self) s =
    (Return (fresh (heap s)),
     {| world := world s;
        factory_class_map := factory_class_map s;
        heap := <[fresh (heap s) := o]> (heap s);
        calls := calls s |}).
Proof. reflexivity. Qed.

(** ** class Use *)


(** ** class PostGenerated *)

(** C5: a [PostGenerated] instance built from [f], [args] and [kwargs]
    resolves, for any field name and any mapping of generated values, to
    what [f] returns on the name, the mapping, then [args], with
    [kwargs]; [f] is called once. *)
Theorem post_generated_to_value_calls_fn s self (f : Callable World)
    args kwargs (name : string) values :
  heap s !! self = Some (PostGeneratedObj {| value := f |} kwargs args) ->
  let all_args := PyStr name :: PyDict values :: args in
  let r := callable_run f all_args kwargs (world s) in
  PostGenerated.to_value self name values s =
    (fst r, after_call s (snd r) (EvCall (callable_id f) all_args kwargs)).
Proof.
  intros H all_args r.
  rewrite (post_generated_to_value_at _ _ _ _ _ name values H).
  apply call_run.
Qed.

(** ** Construction *)

(** C6: constructing a [Use] or a [PostGenerated] writes one new
    instance whose slots hold the callable, the positional and the named
    arguments as given. It returns for every callable and every argument
    list (nothing is checked), it makes no call, and the world, the
    registry and every instance that existed are as before. *)
Theorem construct_stores_verbatim s (fn : Callable World) args kwargs :
  let self := fresh (heap s) in
  let stored o :=
    {| world := world s;
       factory_class_map := factory_class_map s;
       heap := <[self := o]> (heap s);
       calls := calls s |} in
  heap s !! self = None /\
  Use.construct fn args kwargs s =
    (Return self, stored (UseObj {| value := fn |} kwargs args)) /\
  PostGenerated.construct fn args kwargs s =
    (Return self, stored (PostGeneratedObj {| value := fn |} kwargs args)) /\
  (forall o other, other <> self ->
     heap (stored o) !! other = heap s !! other) /\
  (forall o, heap (stored o) !! self = Some o).
Proof.
  intros self stored. split; [apply fresh_unused|].
  split; [apply construct_run|]. split; [apply construct_run|].
  split.
  - intros o other Hne. simpl. by rewrite lookup_insert_ne.
  - intros o. simpl. apply lookup_insert_eq.
Qed.

(** ** class Fixture *)

(** C1: a [Fixture] whose stored fixture is not a key of the registry
    resolves by raising [ParameterError]; the state is the one it started
    from, so neither [build] nor [batch] was called and nothing was
    produced. *)
Theorem fixture_unregistered_raises s self fixture (size : PyVal) kwargs :
  heap s !! self = Some (FixtureObj fixture size kwargs) ->
  factory_class_map s !! callable_id (value fixture) = None ->
  Fixture.to_value self s =
    (Raise (ParameterError Fixture.not_registered), s).
Proof.
  intros H Hreg. rewrite (fixture_to_value_at _ _ _ _ _ H). by rewrite Hreg.
Qed.

(** C2: a [Fixture] whose fixture is registered and whose size is a
    positive integer [n] resolves to the result of the registered
    factory's [batch] on [n] and the stored keyword arguments; that call
    is the only one made, so [build] is not called. *)
Theorem fixture_sized_calls_batch s self fixture (n : Z) kwargs
    (factory : Factory World) :
  heap s !! self = Some (FixtureObj fixture (PyInt n) kwargs) ->
  factory_class_map s !! callable_id (value fixture) = Some factory ->
  0 < n ->
  let r := factory_batch factory (PyInt n) kwargs (world s) in
  let ev := EvBatch (factory_id factory) (PyInt n) kwargs in
  Fixture.to_value self s = (fst r, after_call s (snd r) ev) /\
  calls (snd (Fixture.to_value self s)) = calls s ++ [ev].
Proof.
  intros H Hreg Hn r ev.
  assert (E : Fixture.to_value self s = (fst r, after_call s (snd r) ev)).
  { rewrite (fixture_to_value_at _ _ _ _ _ H), Hreg. simpl.
    destruct (Z.eqb_spec n 0) as [->|_]; [lia|]. apply batch_run. }
  by rewrite E.
Qed.

(** C3: a [Fixture] whose fixture is registered and whose size is unset
    ([None]) resolves to the result of the registered factory's [build]
    on the stored keyword arguments; that call is the only one made, so
    [batch] is not called. *)
Theorem fixture_unsized_calls_build s self fixture kwargs
    (factory : Factory World) :
  heap s !! self = Some (FixtureObj fixture PyNone kwargs) ->
  factory_class_map s !! callable_id (value fixture) = Some factory ->
  let r := factory_build factory kwargs (world s) in
  let ev := EvBuild (factory_id factory) kwargs in
  Fixture.to_value self s = (fst r, after_call s (snd r) ev) /\
  calls (snd (Fixture.to_value self s)) = calls s ++ [ev].
Proof.
  intros H Hreg r ev.
  assert (E : Fixture.to_value self s = (fst r, after_call s (snd r) ev)).
  { rewrite (fixture_to_value_at _ _ _ _ _ H), Hreg. apply build_run. }
  by rewrite E.
Qed.

(** C9: a registered [Fixture] whose size is set to [0] resolves by
    calling [build], not [batch], exactly as an instance with the same
    fixture and keyword arguments and no size does; whatever the stored
    size, a resolution that called [batch] had a size that is true. *)
Theorem fixture_zero_size_calls_build s self fixture kwargs
    (factory : Factory World) :
  heap s !! self = Some (FixtureObj fixture (PyInt 0) kwargs) ->
  factory_class_map s !! callable_id (value fixture) = Some factory ->
  let r := factory_build factory kwargs (world s) in
  Fixture.to_value self s =
    (fst r, after_call s (snd r) (EvBuild (factory_id factory) kwargs)) /\
  (forall unset,
     heap s !! unset = Some (FixtureObj fixture PyNone kwargs) ->
     Fixture.to_value unset s = Fixture.to_value self s) /\
  (forall other (size : PyVal),
     heap s !! other = Some (FixtureObj fixture size kwargs) ->
     calls (snd (Fixture.to_value other s)) =
       calls s ++ [EvBatch (factory_id factory) size kwargs] ->
     truthy size = true).
Proof.
  intros H Hreg r.
  assert (E : Fixture.to_value self s =
              (fst r, after_call s (snd r) (EvBuild (factory_id factory) kwargs))).
  { rewrite (fixture_to_value_at _ _ _ _ _ H), Hreg. apply build_run. }
  split; [exact E|]. split.
  - intros unset Hu. rewrite E.
    rewrite (fixture_to_value_at _ _ _ _ _ Hu), Hreg. apply build_run.
  - intros other size Ho Hlog.
    rewrite (fixture_to_value_at _ _ _ _ _ Ho), Hreg in Hlog.
    destruct (truthy size); [done|].
    rewrite build_run in Hlog. simpl in Hlog.
    apply app_inj_tail in Hlog as [_ Hev]. discriminate Hev.
Qed.

(** C10, as the code has it: a [Fixture] raises the [ParameterError] of
    its own, the one that says the fixture is not registered, and calls
    nothing, exactly when its fixture is absent from the registry. With
    the fixture registered the run is that of the one factory call and
    nothing else, so an exception then, a [ParameterError] among them, is
    the factory's. The size is not checked: a size that is true reaches
    [batch] as it is, whatever it is, and a size that is not leads to
    [build]. *)
Theorem fixture_own_error_iff_unregistered s self fixture (size : PyVal)
    kwargs :
  heap s !! self = Some (FixtureObj fixture size kwargs) ->
  (factory_class_map s !! callable_id (value fixture) = None ->
   Fixture.to_value self s =
     (Raise (ParameterError Fixture.not_registered), s)) /\
  (forall factory,
     factory_class_map s !! callable_id (value fixture) = Some factory ->
     Fixture.to_value self s =
       if truthy size then
         let r := factory_batch factory size kwargs (world s) in
         (fst r, after_call s (snd r) (EvBatch (factory_id factory) size kwargs))
       else
         let r := factory_build factory kwargs (world s) in
         (fst r, after_call s (snd r) (EvBuild (factory_id factory) kwargs))) /\
  (raised_here s (Fixture.to_value self s)
               (ParameterError Fixture.not_registered) <->
   factory_class_map s !! callable_id (value fixture) = None) /\
  (forall e, raised_here s (Fixture.to_value self s) e ->
     e = ParameterError Fixture.not_registered).
Proof.
  intros H. rewrite (fixture_to_value_at _ _ _ _ _ H).
  destruct (factory_class_map s !! callable_id (value fixture))
    as [factory|] eqn:Hreg.
  - assert (Hno : forall e,
              ~ raised_here s (if truthy size then batch factory size kwargs s
                               else build factory kwargs s) e).
    { intros e [_ Hlog]. destruct (truthy size).
      - rewrite batch_run in Hlog. by apply log_grew in Hlog.
      - rewrite build_run in Hlog. by apply log_grew in Hlog. }
    split; [discriminate|]. split; [|split].
    + intros factory' [= <-].
      destruct (truthy size); [apply batch_run | apply build_run].
    + split; [intros Hr; by apply Hno in Hr | discriminate].
    + intros e Hr. by apply Hno in Hr.
  - split; [reflexivity|]. split; [discriminate|]. split.
    + split; [reflexivity|]. intros _. split; reflexivity.
    + intros e [He _]. simpl in He. by injection He as <-.
Qed.

(** ** All three classes *)

(** C7: an exception raised by the wrapped callable of a [Use] or a
    [PostGenerated], or by the [build] or [batch] of the factory a
    [Fixture] delegates to, is the outcome of [to_value]: the same
    exception, after the one call that raised it and no other. *)
Theorem callee_exception_propagates s self e :
  (forall fn kwargs args,
     heap s !! self = Some (UseObj fn kwargs args) ->
     fst (callable_run (value fn) args kwargs (world s)) = Raise e ->
     fst (Use.to_value self s) = Raise e /\
     calls (snd (Use.to_value self s)) =
       calls s ++ [EvCall (callable_id (value fn)) args kwargs]) /\
  (forall fn kwargs args (name : string) values,
     heap s !! self = Some (PostGeneratedObj fn kwargs args) ->
     let all_args := PyStr name :: PyDict values :: args in
     fst (callable_run (value fn) all_args kwargs (world s)) = Raise e ->
     fst (PostGenerated.to_value self name values s) = Raise e /\
     calls (snd (PostGenerated.to_value self name values s)) =
       calls s ++ [EvCall (callable_id (value fn)) all_args kwargs]) /\
  (forall fixture (size : PyVal) kwargs (factory : Factory World),
     heap s !! self = Some (FixtureObj fixture size kwargs) ->
     factory_class_map s !! callable_id (value fixture) = Some factory ->
     (truthy size = true ->
      fst (factory_batch factory size kwargs (world s)) = Raise e ->
      fst (Fixture.to_value self s) = Raise e /\
      calls (snd (Fixture.to_value self s)) =
        calls s ++ [EvBatch (factory_id factory) size kwargs]) /\
     (truthy size = false ->
      fst (factory_build factory kwargs (world s)) = Raise e ->
      fst (Fixture.to_value self s) = Raise e /\
      calls (snd (Fixture.to_value self s)) =
        calls s ++ [EvBuild (factory_id factory) kwargs])).
Proof.
  split; [|split].
  - intros fn kwargs args H He.
    rewrite (use_to_value_at _ _ _ _ _ H), call_run. by split.
  - intros fn kwargs args name values H all_args He.
    rewrite (post_generated_to_value_at _ _ _ _ _ name values H), call_run.
    by split.
  - intros fixture size kwargs factory H Hreg.
    rewrite (fixture_to_value_at _ _ _ _ _ H), Hreg.
    split; intros Ht He; rewrite Ht.
    + rewrite batch_run. by split.
    + rewrite build_run. by split.
Qed.

End Properties.

(** * The properties at work on the sample class body

    In [Samples.s1] the instances sit at the addresses 1 to 12, in the
    order of [Samples.declare]. *)

Section Worked.
Import Samples.

Let name_a : Kwargs := [("name", PyStr "a")].


(** [PostGenerated(lambda name, vals: vals["x"] * 2)] resolved for the
    field [y] with [x] generated as 10 gives 20. *)
Lemma post_generated_to_value_calls_fn_witness :
  fst (PostGenerated.to_value 3 "y" [("x", PyInt 10)] s1) = Return (PyInt 20) /\
  calls (snd (PostGenerated.to_value 3 "y" [("x", PyInt 10)] s1)) =
    [EvCall 12 [PyStr "y"; PyDict [("x", PyInt 10)]] []].
Proof.
  assert (H : heap s1 !! 3%nat =
              Some (PostGeneratedObj {| value := double_x |} [] []))
    by reflexivity.
  rewrite (post_generated_to_value_calls_fn s1 3 double_x [] []
             "y" [("x", PyInt 10)] H).
  split; reflexivity.
Defined.

(** The fixture at address 6 was never registered. *)
Lemma fixture_unregistered_raises_witness :
  Fixture.to_value 6 s1 = (Raise (ParameterError Fixture.not_registered), s1).
Proof.
  apply (fixture_unregistered_raises s1 6 {| value := stray_fixture |}
           (PyInt 5) []); reflexivity.
Defined.

(** Size 5: one [batch], five objects. *)
Lemma fixture_sized_calls_batch_witness :
  fst (Fixture.to_value 5 s1) =
    Return (PyList [PyObj 0; PyObj 1; PyObj 2; PyObj 3; PyObj 4]) /\
  calls (snd (Fixture.to_value 5 s1)) = [EvBatch 30 (PyInt 5) name_a].
Proof.
  assert (H : heap s1 !! 5%nat =
              Some (FixtureObj {| value := person_fixture |} (PyInt 5) name_a))
    by reflexivity.
  assert (Hreg : factory_class_map s1 !! callable_id person_fixture =
                 Some person_factory) by reflexivity.
  destruct (fixture_sized_calls_batch s1 5 _ 5 _ _ H Hreg eq_refl) as [E L].
  split; [rewrite E; reflexivity | exact L].
Defined.

(** No size: one [build], one object. *)
Lemma fixture_unsized_calls_build_witness :
  fst (Fixture.to_value 4 s1) = Return (PyObj 0) /\
  calls (snd (Fixture.to_value 4 s1)) = [EvBuild 30 name_a].
Proof.
  assert (H : heap s1 !! 4%nat =
              Some (FixtureObj {| value := person_fixture |} PyNone name_a))
    by reflexivity.
  assert (Hreg : factory_class_map s1 !! callable_id person_fixture =
                 Some person_factory) by reflexivity.
  destruct (fixture_unsized_calls_build s1 4 _ _ _ H Hreg) as [E L].
  split; [rewrite E; reflexivity | exact L].
Defined.

(** Size 0 at address 7 resolves as the unsized instance at address 4. *)
Lemma fixture_zero_size_calls_build_witness :
  fst (Fixture.to_value 7 s1) = Return (PyObj 0) /\
  calls (snd (Fixture.to_value 7 s1)) = [EvBuild 30 name_a] /\
  Fixture.to_value 4 s1 = Fixture.to_value 7 s1.
Proof.
  assert (H : heap s1 !! 7%nat =
              Some (FixtureObj {| value := person_fixture |} (PyInt 0) name_a))
    by reflexivity.
  assert (Hreg : factory_class_map s1 !! callable_id person_fixture =
                 Some person_factory) by reflexivity.
  destruct (fixture_zero_size_calls_build s1 7 _ _ _ H Hreg) as (E & U & _).
  split; [rewrite E; reflexivity | split; [rewrite E; reflexivity |]].
  apply U. reflexivity.
Defined.

(** The unregistered fixture at address 6 raises its own error and the
    state is the one it started from; the registered one at address 11,
    whose size is [-2], hands that size to [batch], and what it raises is
    what [batch] raised. *)
Lemma fixture_own_error_iff_unregistered_witness :
  Fixture.to_value 6 s1 = (Raise (ParameterError Fixture.not_registered), s1) /\
  fst (Fixture.to_value 11 s1) = Raise (ParameterError "unsupported type") /\
  calls (snd (Fixture.to_value 11 s1)) = [EvBatch 31 (PyInt (-2)) []].
Proof.
  assert (H6 : heap s1 !! 6%nat =
               Some (FixtureObj {| value := stray_fixture |} (PyInt 5) []))
    by reflexivity.
  assert (H11 : heap s1 !! 11%nat =
                Some (FixtureObj {| value := failing_fixture |} (PyInt (-2)) []))
    by reflexivity.
  destruct (fixture_own_error_iff_unregistered s1 6 _ _ _ H6) as (N & _).
  destruct (fixture_own_error_iff_unregistered s1 11 _ _ _ H11) as (_ & B & _).
  split; [apply N; reflexivity|].
  rewrite (B failing_factory eq_refl). split; reflexivity.
Defined.

(** C10 as it was stated fails on a registered fixture whose factory
    raises [ParameterError]: the unsized instance at address 10 is
    registered, and resolving it ends in a [ParameterError]. *)
Lemma fixture_parameter_error_while_registered :
  heap s1 !! 10%nat =
    Some (FixtureObj {| value := failing_fixture |} PyNone []) /\
  factory_class_map s1 !! callable_id failing_fixture = Some failing_factory /\
  fst (Fixture.to_value 10 s1) = Raise (ParameterError "unsupported type") /\
  ~ (raises "ParameterError" (Fixture.to_value 10 s1) <->
     factory_class_map s1 !! callable_id failing_fixture = None).
Proof.
  split; [reflexivity|]. split; [reflexivity|]. split; [reflexivity|].
  intros [Hraise _].
  assert (Habsent : factory_class_map s1 !! callable_id failing_fixture = None).
  { apply Hraise. exists (ParameterError "unsupported type").
    split; reflexivity. }
  discriminate Habsent.
Qed.

(** The exceptions of [boom] and of the two factories come out as they
    were raised. *)
Lemma callee_exception_propagates_witness :
  fst (Use.to_value 8 s1) = Raise ValueError /\
  fst (PostGenerated.to_value 9 "y" [] s1) = Raise ValueError /\
  fst (Fixture.to_value 10 s1) = Raise (ParameterError "unsupported type") /\
  fst (Fixture.to_value 12 s1) = Raise TypeError.
Proof.
  destruct (callee_exception_propagates s1 8 ValueError) as (U & _ & _).
  destruct (callee_exception_propagates s1 9 ValueError) as (_ & P & _).
  destruct (callee_exception_propagates s1 10 (ParameterError "unsupported type"))
    as (_ & _ & F).
  destruct (callee_exception_propagates s1 12 TypeError) as (_ & _ & G).
  split; [|split; [|split]].
  - exact (proj1 (U {| value := boom |} [] [PyInt 1] eq_refl eq_refl)).
  - exact (proj1 (P {| value := boom |} [] [] "y" [] eq_refl eq_refl)).
  - exact (proj1 (proj2 (F {| value := failing_fixture |} PyNone []
                           failing_factory eq_refl eq_refl)
                        eq_refl eq_refl)).
  - exact (proj1 (proj1 (G {| value := person_fixture |} (PyStr "many") []
                           person_factory eq_refl eq_refl)
                        eq_refl eq_refl)).
Defined.

End Worked.

(** * Construction and resolution together *)

Section Composition.
Context {World : Type}.
Implicit Types (s : State World) (self : nat) (e : PyExc).
Implicit Types (args : list PyVal) (kwargs values : Kwargs).

Lemma construct_heap_at s (o : Obj World) :
  heap (snd ((self <- new;; store self o;;; ret self) s)) !! fresh (heap s) =
    Some o.
Proof. rewrite construct_run. simpl. apply lookup_insert_eq. Qed.

(** X1: constructing a [Fixture] writes one new instance holding the
    fixture, the size and the keyword arguments as given. It returns
    whatever the size is and whether or not the fixture is registered: the
    registry is not read, no call is made, and the world, the registry and
    the log are as before. *)
Theorem fixture_construct_stores_verbatim s (fixture : Callable World)
    (size : PyVal) kwargs :
  let self := fresh (heap s) in
  heap s !! self = None /\
  Fixture.construct fixture size kwargs s =
    (Return self,
     {| world := world s;
        factory_class_map := factory_class_map s;
        heap := <[self := FixtureObj {| value := fixture |} size kwargs]> (heap s);
        calls := calls s |}).
Proof.
  intros self. split; [apply fresh_unused | apply construct_run].
Qed.

(** X2: [Fixture(fixture, size, **kwargs).to_value()], from construction
    to result. A fixture that is not registered is found out at resolution,
    not at construction: [ParameterError] and nothing called. A registered
    one gets one call of its factory in the world as it was: [batch] with
    the size when the size is true, [build] otherwise. *)
Theorem fixture_construct_then_to_value s (fixture : Callable World)
    (size : PyVal) kwargs :
  let self := fresh (heap s) in
  let s1 := snd (Fixture.construct fixture size kwargs s) in
  Fixture.to_value self s1 =
    match factory_class_map s !! callable_id fixture with
    | None => (Raise (ParameterError Fixture.not_registered), s1)
    | Some factory =>
        if truthy size then
          let r := factory_batch factory size kwargs (world s) in
          (fst r, after_call s1 (snd r) (EvBatch (factory_id factory) size kwargs))
        else
          let r := factory_build factory kwargs (world s) in
          (fst r, after_call s1 (snd r) (EvBuild (factory_id factory) kwargs))
    end.
Proof.
  intros self s1.
  assert (H : heap s1 !! self =
              Some (FixtureObj {| value := fixture |} size kwargs))
    by apply construct_heap_at.
  rewrite (fixture_to_value_at _ _ _ _ _ H). simpl.
  destruct (factory_class_map s !! callable_id fixture) as [factory|];
    [|reflexivity].
  destruct (truthy size);
    [exact (batch_run factory size kwargs s1)
    | exact (build_run factory kwargs s1)].
Qed.

(** X3: [Use(f, *args, **kwargs).to_value()], from construction to result:
    the outcome of [f] on [args] and [kwargs] in the world as it was, by
    one call of [f]. *)
Theorem use_construct_then_to_value s (f : Callable World) args kwargs :
  let self := fresh (heap s) in
  let s1 := snd (Use.construct f args kwargs s) in
  let r := callable_run f args kwargs (world s) in
  Use.to_value self s1 =
    (fst r, after_call s1 (snd r) (EvCall (callable_id f) args kwargs)).
Proof.
  intros self s1 r.
  assert (H : heap s1 !! self = Some (UseObj {| value := f |} kwargs args))
    by apply construct_heap_at.
  rewrite (use_to_value_at _ _ _ _ _ H). exact (call_run f args kwargs s1).
Qed.

(** X4: [PostGenerated(f, *args, **kwargs).to_value(name, values)], from
    construction to result: the outcome of [f] on the name, the values and
    then [args], with [kwargs], in the world as it was, by one call. *)
Theorem post_generated_construct_then_to_value s (f : Callable World)
    args kwargs (name : string) values :
  let self := fresh (heap s) in
  let s1 := snd (PostGenerated.construct f args kwargs s) in
  let all_args := PyStr name :: PyDict values :: args in
  let r := callable_run f all_args kwargs (world s) in
  PostGenerated.to_value self name values s1 =
    (fst r, after_call s1 (snd r) (EvCall (callable_id f) all_args kwargs)).
Proof.
  intros self s1 all_args r.
  assert (H : heap s1 !! self =
              Some (PostGeneratedObj {| value := f |} kwargs args))
    by apply construct_heap_at.
  rewrite (post_generated_to_value_at _ _ _ _ _ name values H).
  exact (call_run f all_args kwargs s1).
Qed.

(** X5: [Fixture.to_value] never calls the stored fixture: it is a key of
    the registry and nothing more. From every state and for every
    reference, the calls it makes are at most one, that one goes to a
    factory, and when it makes none the world is left as it was. *)
Theorem fixture_to_value_never_calls_fixture s self :
  exists made,
    calls (snd (Fixture.to_value self s)) = calls s ++ made /\
    (length made <= 1)%nat /\
    forallb is_factory_call made = true /\
    (made = [] -> world (snd (Fixture.to_value self s)) = world s).
Proof.
  unfold Fixture.to_value, bind, deref, factory_class_map_get.
  destruct (heap s !! self) as [[fn kw a|fn kw a|fx sz kw]|];
    try (exists []; simpl; rewrite app_nil_r; repeat split; lia).
  destruct (factory_class_map s !! callable_id (value fx)) as [factory|].
  - destruct (truthy sz).
    + exists [EvBatch (factory_id factory) sz kw]. rewrite batch_run. simpl.
      repeat split; [lia | discriminate].
    + exists [EvBuild (factory_id factory) kw]. rewrite build_run. simpl.
      repeat split; [lia | discriminate].
  - exists []. simpl. rewrite app_nil_r. repeat split; lia.
Qed.


(** X7: a registered [Fixture] whose stored size fails Python's truth test
    is built, not batched, and the size does not reach the factory: that
    holds for [False], the empty string and an empty list or dict as it
    does for [0] and [None]. *)
Theorem fixture_falsy_size_calls_build s self fixture (size : PyVal) kwargs
    (factory : Factory World) :
  heap s !! self = Some (FixtureObj fixture size kwargs) ->
  factory_class_map s !! callable_id (value fixture) = Some factory ->
  truthy size = false ->
  let r := factory_build factory kwargs (world s) in
  Fixture.to_value self s =
    (fst r, after_call s (snd r) (EvBuild (factory_id factory) kwargs)).
Proof.
  intros H Hreg Hf r.
  rewrite (fixture_to_value_at _ _ _ _ _ H), Hreg, Hf. apply build_run.
Qed.

End Composition.

(** * Construction and resolution on the sample class body *)

Section WorkedComposition.
Import Samples.

Let name_a : Kwargs := [("name", PyStr "a")].


(** [Fixture(person_fixture, size=False, name="a")], declared after the
    others, resolves by one [build]. *)
Lemma fixture_falsy_size_calls_build_witness :
  let s2 := snd (Fixture.construct person_fixture (PyBool false) name_a s1) in
  fst (Fixture.to_value 13 s2) = Return (PyObj 0) /\
  calls (snd (Fixture.to_value 13 s2)) = [EvBuild 30 name_a].
Proof.
  intros s2.
  assert (H : heap s2 !! 13%nat =
              Some (FixtureObj {| value := person_fixture |} (PyBool false) name_a))
    by reflexivity.
  assert (Hreg : factory_class_map s2 !! callable_id person_fixture =
                 Some person_factory) by reflexivity.
  rewrite (fixture_falsy_size_calls_build s2 13 _ _ _ _ H Hreg eq_refl).
  split; reflexivity.
Defined.

End WorkedComposition.

(** * What resolution writes, with everything shared by reference *)

Module SharedStore.
Import ByRef.

Section SharedStore.
Context {World : Type}.
Implicit Types (code : Code World) (s : Run World) (m : Store World).
Implicit Types (self : nat) (args : list PyVal) (kwargs : Kwargs).

Lemma call_made code (f : nat) args kwargs s :
  call code f args kwargs s =
    (fst (run_callable code f args kwargs (mem s)),
     {| mem := snd (run_callable code f args kwargs (mem s));
        made := made s ++ [EvCall f args kwargs] |}).
Proof. unfold call. by destruct (run_callable code f args kwargs (mem s)). Qed.

Lemma build_made code (factory : nat) kwargs s :
  build code factory kwargs s =
    (fst (run_build code factory kwargs (mem s)),
     {| mem := snd (run_build code factory kwargs (mem s));
        made := made s ++ [EvBuild factory kwargs] |}).
Proof. unfold build. by destruct (run_build code factory kwargs (mem s)). Qed.

Lemma batch_made code (factory : nat) (size : PyVal) kwargs s :
  batch code factory size kwargs s =
    (fst (run_batch code factory size kwargs (mem s)),
     {| mem := snd (run_batch code factory size kwargs (mem s));
        made := made s ++ [EvBatch factory size kwargs] |}).
Proof.
  unfold batch. by destruct (run_batch code factory size kwargs (mem s)).
Qed.

(** C8, as the code has it: [to_value] writes nothing itself. For each of
    the three classes the store after it, with the slots of every
    instance, the list objects the arguments refer to and the registry, is
    the store that the one call into external code left, and the store it
    started from when a [Fixture] is not registered. So a stored field
    differs after [to_value] only if the callee made it differ: when no
    external code changes what the fields of the instance show, they show
    after [to_value] what they showed before. *)
Theorem to_value_writes_nothing code s self (name : string) (values : PyVal) :
  (forall fn kwargs args,
     cells (mem s) !! self = Some (UseCell fn kwargs args) ->
     let r := run_callable code (value fn) args kwargs (mem s) in
     Use.to_value code self s =
       (fst r, {| mem := snd r;
                  made := made s ++ [EvCall (value fn) args kwargs] |})) /\
  (forall fn kwargs args,
     cells (mem s) !! self = Some (PostGeneratedCell fn kwargs args) ->
     let all_args := PyStr name :: values :: args in
     let r := run_callable code (value fn) all_args kwargs (mem s) in
     PostGenerated.to_value code self name values s =
       (fst r, {| mem := snd r;
                  made := made s ++ [EvCall (value fn) all_args kwargs] |})) /\
  (forall fixture (size : PyVal) kwargs,
     cells (mem s) !! self = Some (FixtureCell fixture size kwargs) ->
     Fixture.to_value code self s =
       match factory_class_map (mem s) !! value fixture with
       | None => (Raise (ParameterError Fixture.not_registered), s)
       | Some factory =>
           if truthy_at (mem s) size then
             let r := run_batch code factory size kwargs (mem s) in
             (fst r, {| mem := snd r;
                        made := made s ++ [EvBatch factory size kwargs] |})
           else
             let r := run_build code factory kwargs (mem s) in
             (fst r, {| mem := snd r;
                        made := made s ++ [EvBuild factory kwargs] |})
       end) /\
  ((forall f a k m,
      stored_fields (snd (run_callable code f a k m)) self = stored_fields m self) ->
   (forall f k m,
      stored_fields (snd (run_build code f k m)) self = stored_fields m self) ->
   (forall f z k m,
      stored_fields (snd (run_batch code f z k m)) self = stored_fields m self) ->
   stored_fields (mem (snd (Use.to_value code self s))) self =
     stored_fields (mem s) self /\
   stored_fields (mem (snd (PostGenerated.to_value code self name values s))) self =
     stored_fields (mem s) self /\
   stored_fields (mem (snd (Fixture.to_value code self s))) self =
     stored_fields (mem s) self).
Proof.
  split; [|split; [|split]].
  - intros fn kwargs args H r. unfold Use.to_value, cast. rewrite H.
    apply call_made.
  - intros fn kwargs args H all_args r. unfold PostGenerated.to_value.
    rewrite H. apply call_made.
  - intros fixture size kwargs H. unfold Fixture.to_value. rewrite H.
    destruct (factory_class_map (mem s) !! value fixture); [|reflexivity].
    destruct (truthy_at (mem s) size); [apply batch_made | apply build_made].
  - intros Hcall Hbuild Hbatch. split; [|split].
    + unfold Use.to_value, cast.
      destruct (cells (mem s) !! self) as [[items|fn kw a|fn kw a|fx sz kw]|];
        try reflexivity.
      rewrite call_made. apply Hcall.
    + unfold PostGenerated.to_value.
      destruct (cells (mem s) !! self) as [[items|fn kw a|fn kw a|fx sz kw]|];
        try reflexivity.
      rewrite call_made. apply Hcall.
    + unfold Fixture.to_value.
      destruct (cells (mem s) !! self) as [[items|fn kw a|fn kw a|fx sz kw]|];
        try reflexivity.
      destruct (factory_class_map (mem s) !! value fx); [|reflexivity].
      destruct (truthy_at (mem s) sz).
      * rewrite batch_made. apply Hbatch.
      * rewrite build_made. apply Hbuild.
Qed.

End SharedStore.

Section OnSamples.
Import ByRef.Samples.

(** Resolving [Use(append_one, the_list)]: one call, the slots of the
    instance hold what they held, and the list they refer to is the one
    the callee left. Resolving the fixture at address 3: the registry is
    the one its [build] left. Under external code that writes nothing, the
    fields of the instance at address 1 show the same before and after. *)
Lemma to_value_writes_nothing_witness :
  made (snd (Use.to_value code 1 r0)) = [EvCall append_one [PyObj 7] []] /\
  cells (mem (snd (Use.to_value code 1 r0))) !! 1%nat = cells (mem r0) !! 1%nat /\
  cells (mem (snd (Use.to_value code 1 r0))) !! 7%nat =
    Some (ListCell [PyInt 1]) /\
  factory_class_map (mem (snd (Fixture.to_value code 3 r0))) !! once_fixture =
    None /\
  stored_fields (mem (snd (Use.to_value readers 1 r0))) 1 =
    stored_fields (mem r0) 1.
Proof.
  assert (H1 : cells (mem r0) !! 1%nat =
               Some (UseCell {| value := append_one |} [] [PyObj 7]))
    by reflexivity.
  assert (H3 : cells (mem r0) !! 3%nat =
               Some (FixtureCell {| value := once_fixture |} PyNone []))
    by reflexivity.
  destruct (to_value_writes_nothing code r0 1 "y" PyNone) as (U & _).
  destruct (to_value_writes_nothing code r0 3 "y" PyNone) as (_ & _ & F & _).
  destruct (to_value_writes_nothing readers r0 1 "y" PyNone) as (_ & _ & _ & K).
  rewrite (U _ _ _ H1), (F _ _ _ H3).
  split; [reflexivity|]. split; [reflexivity|]. split; [reflexivity|].
  split; [reflexivity|].
  apply K; intros; reflexivity.
Defined.

(** C8 as it was stated fails when the callee writes what it was handed.
    [u = Use(lambda items: items.append(1), [])]: [u.args] shows [([],)]
    before [u.to_value()] and [([1],)] after it. And a callable that holds
    its own descriptor assigns a slot of it while [to_value] runs. *)
Lemma stored_fields_change_under_to_value :
  stored_fields (mem r0) 1 = Some (append_one, [PyList []], [], PyNone) /\
  stored_fields (mem (snd (Use.to_value code 1 r0))) 1 =
    Some (append_one, [PyList [PyInt 1]], [], PyNone) /\
  stored_fields (mem (snd (Use.to_value code 1 r0))) 1 <>
    stored_fields (mem r0) 1 /\
  cells (mem r0) !! 2%nat =
    Some (UseCell {| value := rebind_args |} [] [PyInt 3]) /\
  cells (mem (snd (Use.to_value code 2 r0))) !! 2%nat =
    Some (UseCell {| value := rebind_args |} [] []).
Proof.
  split; [reflexivity|]. split; [reflexivity|]. split; [discriminate|].
  split; reflexivity.
Qed.

End OnSamples.

End SharedStore.
